(** * brightness.py: the timed easing generator and the backlight handle

    A shallow embedding of [src/brightness.py].

    Conventions of the model.
    - Python numbers (ints and floats alike) are exact rationals [Q]; the
      rounding of binary floating point is not modelled.  Integers that the
      program keeps as [int] (the cached maximum, the parsed brightness, the
      command-line operand) are [Z].
    - [datetime.now()] is an oracle: the [k]-th call of the run returns
      [now k], a number of microseconds.  The world counts the calls.
    - The [brightness] endpoint is a sysfs attribute: a write at offset 0
      replaces the value, a read at offset 0 returns its text.  The buffer of
      the Python file object is not modelled: a write reaches the attribute
      when [write] is called.
    - Exceptions are values of [exn]; code that may raise runs in the state
      and error monad [M].  Loops that may run forever take fuel and return
      [None] when it runs out. *)

From Stdlib Require Import ZArith QArith List String Ascii Bool Lia Lqa.
From Stdlib Require Import Decimal DecimalString DecimalPos DecimalZ.
Import ListNotations.

Local Open Scope Q_scope.

(** ** Exceptions, world and monad *)

Inductive exn : Type :=
| ZeroDivisionError
| ValueError
| SystemExit (code : Z).

Inductive res (A : Type) : Type :=
| Ok (a : A)
| Raise (e : exn).
Arguments Ok {A} a.
Arguments Raise {A} e.

(** What the program can observe and change: the number of clock samples
    taken so far, the two endpoints of the backlight directory, and the two
    output streams (one entry per printed line, oldest first). *)
Record world : Type := mkWorld {
  reads : nat;
  max_brightness_file : string;
  brightness_file : string;
  stdout : list string;
  stderr : list string
}.

Definition M (A : Type) : Type := world -> res A * world.

Definition ret {A} (a : A) : M A := fun w => (Ok a, w).
Definition raise {A} (e : exn) : M A := fun w => (Raise e, w).
Definition bind {A B} (m : M A) (k : A -> M B) : M B :=
  fun w => match m w with
           | (Ok a, w') => k a w'
           | (Raise e, w') => (Raise e, w')
           end.

Notation "x <- m ;; k" := (bind m (fun x => k))
  (at level 61, m at next level, right associativity).
Notation "m ;;; k" := (bind m (fun _ => k))
  (at level 61, right associativity).

(** ** Numbers *)

Definition Qltb (x y : Q) : bool := negb (Qle_bool y x).

(** [x / y] of Python: division by zero raises. *)
Definition py_div (x y : Q) : M Q :=
  if Qeq_bool y 0 then raise ZeroDivisionError else ret (x / y).

(** [int(x)] on a number: truncation toward zero. *)
Definition py_int (x : Q) : Z := Z.quot (Qnum x) (Z.pos (Qden x)).

(** [timedelta.total_seconds()], the difference being in microseconds. *)
Definition total_seconds (us : Z) : Q := us # 1000000.

(** ** The generator [timed_range] *)

(** The world after clock samples have been taken: only the count moves. *)
Definition with_reads (n : nat) (w : world) : world :=
  mkWorld n (max_brightness_file w) (brightness_file w) (stdout w) (stderr w).

Section Clock.

Variable now : nat -> Z.

Definition datetime_now : M Z :=
  fun w => (Ok (now (reads w)), with_reads (S (reads w)) w).

(** The local variables of a suspended generator. *)
Record frame : Type := mkFrame {
  start : Q;
  stop : Q;
  duration : Q;
  easing_func : Q -> Q;
  t_start : Z;
  y_span : Q;
  t : Q;
  t_scaled : Q;
  i : Q
}.

Inductive gen : Type :=
| Created (start stop duration : Q) (easing_func : Q -> Q)
| Suspended (fr : frame)
| Finished.

(** [1 - (duration - t) / duration] *)
Definition scaled (duration t : Q) : M Q :=
  q <- py_div (duration - t) duration ;;
  ret (1 - q).

(** From the test of the [while] to the [yield] (or to the end). *)
Definition while_loop (fr : frame) : M (option (Q * gen)) :=
  if Qltb (t_scaled fr) 1 then
    let i' := easing_func fr (t_scaled fr) * y_span fr + start fr in
    n <- datetime_now ;;
    let t' := total_seconds (n - t_start fr) in
    ts <- scaled (duration fr) t' ;;
    ret (Some (i', Suspended
      (mkFrame (start fr) (stop fr) (duration fr) (easing_func fr)
               (t_start fr) (y_span fr) t' ts i')))
  else ret None.

(** One call of [next()] on the generator: [None] is [StopIteration]. *)
Definition next (g : gen) : M (option (Q * gen)) :=
  match g with
  | Created start stop duration easing_func =>
      t0 <- datetime_now ;;
      let y := stop - start in
      n <- datetime_now ;;
      let t' := total_seconds (n - t0) in
      ts <- scaled duration t' ;;
      let i' := easing_func ts * y + start in
      while_loop (mkFrame start stop duration easing_func t0 y t' ts i')
  | Suspended fr => while_loop fr
  | Finished => ret None
  end.

(** How a consumer that calls [next()] at most [fuel] times finds the
    generator. *)
Inductive status : Type :=
| Running (g : gen)
| Stopped
| Failed (e : exn).

Fixpoint drain (fuel : nat) (g : gen) (w : world) : list Q * status * world :=
  match fuel with
  | O => ([], Running g, w)
  | S fuel' =>
      match next g w with
      | (Ok None, w') => ([], Stopped, w')
      | (Ok (Some (v, g')), w') =>
          let '(vs, s, w'') := drain fuel' g' w' in (v :: vs, s, w'')
      | (Raise e, w') => ([], Failed e, w')
      end
  end.

(** The value [t_scaled] takes from the clock sample number [n], for a
    generator that read [t0] as its [t_start]. *)
Definition sample_ts (d : Q) (t0 : Z) (n : nat) : Q :=
  1 - (d - total_seconds (now n - t0)) / d.

(** The reading of the specification that each produced value is computed
    from the freshest clock sample: the value of production step [n] comes
    from the last sample taken before it is handed out, which is sample
    number [reads w' - 1] when the step leaves the world [w']. *)
Definition uses_freshest_sample (start stop d : Q) (f : Q -> Q) (w : world)
  : Prop :=
  forall n vs st w' v,
    drain (S n) (Created start stop d f) w = (vs, st, w') ->
    nth_error vs n = Some v ->
    v == f (sample_ts d (now (reads w)) (reads w' - 1)) * (stop - start) + start.

End Clock.

(** ** Text and integers *)

Local Open Scope string_scope.

(** The ASCII characters for which [str.isspace] holds. *)
Definition is_space (c : ascii) : bool :=
  let n := nat_of_ascii c in
  ((9 <=? n)%nat && (n <=? 13)%nat) || ((28 <=? n)%nat && (n <=? 32)%nat).

Fixpoint lstrip (s : string) : string :=
  match s with
  | String c s' => if is_space c then lstrip s' else s
  | EmptyString => EmptyString
  end.

Fixpoint rstrip (s : string) : string :=
  match s with
  | String c s' =>
      match rstrip s' with
      | EmptyString => if is_space c then EmptyString else String c EmptyString
      | r => String c r
      end
  | EmptyString => EmptyString
  end.

(** [s.strip()] *)
Definition strip (s : string) : string := rstrip (lstrip s).

(** [str(z)] on an integer. *)
Definition str (z : Z) : string := NilZero.string_of_int (Z.to_int z).

(** The decimal literals [int(text)] accepts: digits after an optional
    sign.  (Python also accepts underscores between digits and non-ASCII
    digits; a backlight attribute holds neither.) *)
Definition literal (s : string) : option Z :=
  option_map Z.of_int
    (match s with
     | String c s' =>
         if Ascii.eqb c "+" then option_map Pos (NilZero.uint_of_string s')
         else NilZero.int_of_string s
     | EmptyString => None
     end).

(** Characters that are neither white space nor a plus sign, and the
    strings made of them. *)
Definition plain (c : ascii) : bool := negb (is_space c) && negb (Ascii.eqb c "+").

Fixpoint all_plain (s : string) : bool :=
  match s with
  | String c s' => plain c && all_plain s'
  | EmptyString => true
  end.

(** [int(text.strip())]: [ValueError] when the text is no literal. *)
Definition int_of_text (s : string) : M Z :=
  match literal (strip s) with
  | Some z => ret z
  | None => raise ValueError
  end.

(** ** The handle [AcpiBrightnessControl] *)

(** An opened handle.  The world holds one backlight directory, so the
    path [dir] is not kept; [brightness_file] of the handle is the
    [brightness] endpoint of the world. *)
Record AcpiBrightnessControl : Type := mkControl { _max : Z }.

Definition open : M AcpiBrightnessControl :=
  fun w => (m <- int_of_text (max_brightness_file w) ;; ret (mkControl m)) w.

Definition close (c : AcpiBrightnessControl) : M unit := ret tt.

(** The [brightness] property, read: [seek(0)], [read()], [strip()], [int]. *)
Definition get_brightness (c : AcpiBrightnessControl) : M Z :=
  fun w => int_of_text (brightness_file w) w.

(** The world after [text] has been stored in the [brightness] endpoint. *)
Definition with_brightness (text : string) (w : world) : world :=
  mkWorld (reads w) (max_brightness_file w) text (stdout w) (stderr w).

Definition write (text : string) : M unit :=
  fun w => (Ok tt, with_brightness text w).

(** The [brightness] property, written. *)
Definition set_brightness (c : AcpiBrightnessControl) (new_brightness : Q)
  : M unit :=
  if Qltb (inject_Z (_max c)) new_brightness then raise ValueError
  else write (str (py_int new_brightness)).

(** What the endpoint holds after the values [vs] have been written in
    turn over the text [before]. *)
Definition last_written (vs : list Q) (before : string) : string :=
  match List.rev vs with
  | [] => before
  | u :: _ => str (py_int u)
  end.

Section Animate.

Variable now : nat -> Z.

(** The [for] loop of [animate]; [fuel] bounds the calls of [next()].
    [time.sleep(0.001)] changes nothing the model holds: time passes in
    the oracle [now]. *)
Fixpoint for_loop (fuel : nat) (c : AcpiBrightnessControl) (anim_range : gen)
    (w : world) : option (res unit * world) :=
  match fuel with
  | O => None
  | S fuel' =>
      match next now anim_range w with
      | (Raise e, w') => Some (Raise e, w')
      | (Ok None, w') => Some (Ok tt, w')
      | (Ok (Some (v, g)), w') =>
          match set_brightness c v w' with
          | (Raise e, w'') => Some (Raise e, w'')
          | (Ok _, w'') => for_loop fuel' c g w''
          end
      end
  end.

Definition animate (fuel : nat) (c : AcpiBrightnessControl)
    (new_brightness duration : Q) (easing_func : Q -> Q) (w : world)
  : option (res unit * world) :=
  match get_brightness c w with
  | (Raise e, w') => Some (Raise e, w')
  | (Ok b, w') =>
      for_loop fuel c
        (Created (inject_Z b) new_brightness duration easing_func) w'
  end.

(** ** The command line *)

Inductive action : Type := show | max | set | inc | dec.

Definition action_name (a : action) : string :=
  match a with
  | show => "show" | max => "max" | set => "set" | inc => "inc" | dec => "dec"
  end.

(** The namespace [parse_args] returns. *)
Record args : Type := mkArgs {
  args_action : action;
  args_operand : option Z;
  args_duration : Q;
  args_easing_function : string
}.

(** What the program takes from outside the repository: the attributes of
    the module [pytweening] that [getattr] finds (taken as easing
    functions), its [easeOutCubic], and the usage line of [argparse]. *)
Variable pytweening : string -> option (Q -> Q).
Variable easeOutCubic : Q -> Q.
Variable usage : string.

Definition print (line : string) : M unit :=
  fun w => (Ok tt, mkWorld (reads w) (max_brightness_file w) (brightness_file w)
                           (stdout w ++ [line]) (stderr w)).

Definition eprint (line : string) : M unit :=
  fun w => (Ok tt, mkWorld (reads w) (max_brightness_file w) (brightness_file w)
                           (stdout w) (stderr w ++ [line])).

(** [not args.operand]: true of [None] and of [0]. *)
Definition not_operand (o : option Z) : bool :=
  match o with
  | None => true
  | Some z => Z.eqb z 0
  end.

Definition operand_value (o : option Z) : Z :=
  match o with Some z => z | None => 0%Z end.

(** The branch of [main] that animates, inside the [with] block. *)
Definition main_animate (fuel : nat) (a : args) (control : AcpiBrightnessControl)
    (w : world) : option (res unit * world) :=
  if not_operand (args_operand a) then
    Some ((eprint ("The " ++ action_name (args_action a)
                     ++ " action requires an operand!") ;;;
           eprint usage ;;;
           raise (SystemExit 1)) w)
  else
    let '(easing_func, w1) :=
      match pytweening (args_easing_function a) with
      | Some f => (f, w)
      | None =>
          (easeOutCubic,
           snd (print ("No easing function " ++ args_easing_function a
                         ++ " found in PyTweening. Defaulting to easeOutCubic.")
                      w))
      end in
    match get_brightness control w1 with
    | (Raise e, w2) => Some (Raise e, w2)
    | (Ok b, w2) =>
        let new_brightness :=
          match args_action a with
          | set => operand_value (args_operand a)
          | inc => (b + operand_value (args_operand a))%Z
          | dec => (b - operand_value (args_operand a))%Z
          | _ => b
          end in
        animate fuel control (inject_Z new_brightness) (args_duration a)
                easing_func w2
    end.

(** [main] after [parse_args]: the [with] block opens the handle, runs the
    action and closes the handle on every way out. *)
Definition main (fuel : nat) (a : args) (w : world)
  : option (res unit * world) :=
  match open w with
  | (Raise e, w') => Some (Raise e, w')
  | (Ok control, w0) =>
      let r :=
        match args_action a with
        | show => Some ((b <- get_brightness control ;; print (str b)) w0)
        | max => Some (print (str (_max control)) w0)
        | _ => main_animate fuel a control w0
        end in
      match r with
      | Some (Ok _, w1) => Some (close control w1)
      | Some (Raise e, w1) => Some ((close control ;;; raise e) w1)
      | None => None
      end
  end.

(** The exit code of the process. *)
Definition exit_code (r : res unit) : Z :=
  match r with
  | Ok _ => 0
  | Raise (SystemExit code) => code
  | Raise _ => 1
  end.

End Animate.

(** ** Sample runs *)

(** The line feed that ends the text of a sysfs attribute. *)
Definition newline : string := String "010" EmptyString.

(** A clock that is read at 0 s twice, then at 0.5 s, 0.75 s and 1 s. *)
Definition sample_clock (k : nat) : Z :=
  match k with
  | 0%nat | 1%nat => 0
  | 2%nat => 500000
  | 3%nat => 750000
  | _ => 1000000
  end%Z.

(** A backlight at 50 of 100, nothing printed, the clock not yet read. *)
Definition sample_world : world :=
  mkWorld 0 "100" "50" [] [].

(** Strings of white space only. *)
Fixpoint all_space (s : string) : bool :=
  match s with
  | String c s' => is_space c && all_space s'
  | EmptyString => true
  end.

(** The sample backlight as sysfs shows it, each value on a line. *)
Definition sysfs_world : world :=
  mkWorld 0 ("100" ++ newline) ("50" ++ newline) [] [].

(** The same generator under a clock set [c] microseconds later: only
    the instant it remembers as [t_start] differs. *)
Definition shift_frame (c : Z) (fr : frame) : frame :=
  mkFrame (start fr) (stop fr) (duration fr) (easing_func fr)
          (t_start fr + c) (y_span fr) (t fr) (t_scaled fr) (i fr).

Definition shift_gen (c : Z) (g : gen) : gen :=
  match g with
  | Suspended fr => Suspended (shift_frame c fr)
  | Created _ _ _ _ | Finished => g
  end.

Definition shift_status (c : Z) (st : status) : status :=
  match st with
  | Running g => Running (shift_gen c g)
  | Stopped | Failed _ => st
  end.

(** * Properties *)

Local Open Scope Q_scope.

(** ** The model on small inputs *)

Example py_int_truncates :
  py_int (7 # 2) = 3%Z /\ py_int (-7 # 2) = (-3)%Z /\ py_int (-1 # 2) = 0%Z.
Proof. repeat split. Qed.

Example strip_text : strip ("  50" ++ newline) = "50"%string.
Proof. reflexivity. Qed.

Example get_brightness_sysfs :
  fst (get_brightness (mkControl 100)
         (mkWorld 0 ("100" ++ newline) ("50" ++ newline) [] []))
  = Ok 50%Z.
Proof. reflexivity. Qed.

Example literal_texts :
  literal "+5" = Some 5%Z /\ literal "-0" = Some 0%Z /\ literal "007" = Some 7%Z /\
  literal "--5" = None /\ literal "" = None /\ literal "5a" = None.
Proof. repeat split. Qed.

Example str_texts : str 0 = "0"%string /\ str 4095 = "4095"%string /\ str (-5) = "-5"%string.
Proof. repeat split. Qed.

(** From 0 to 10 over one second on the sample clock: the values of the
    samples at 0 s, 0.5 s and 0.75 s; the sample at 1 s stops the loop. *)
Example drain_sample_values :
  let '(vs, st, w') :=
    drain sample_clock 5 (Created 0 10 1 (fun t => t)) sample_world in
  map Qred vs = [0; 5; 15 # 2] /\ st = Stopped /\ reads w' = 5%nat.
Proof. vm_compute. repeat split. Qed.

(** From 50 to 80: 50, 65 and 72.5 are written as 50, 65 and 72. *)
Example animate_sample :
  animate sample_clock 10 (mkControl 100) 80 1 (fun t => t) sample_world
  = Some (Ok tt, mkWorld 5 "100" "72" [] []).
Proof. vm_compute. reflexivity. Qed.

(** ** Arithmetic *)

Lemma Qltb_lt x y : Qltb x y = true <-> x < y.
Proof.
  unfold Qltb. rewrite negb_true_iff, <- not_true_iff_false, Qle_bool_iff.
  split; [apply Qnot_le_lt | apply Qlt_not_le].
Qed.

Lemma Qltb_ge x y : Qltb x y = false <-> y <= x.
Proof.
  unfold Qltb. rewrite negb_false_iff. apply Qle_bool_iff.
Qed.

Lemma Qeq_bool_false x y : Qeq_bool x y = false <-> ~ x == y.
Proof.
  rewrite <- Qeq_bool_iff. destruct (Qeq_bool x y); intuition congruence.
Qed.

(** The progress expression is [t / d] when it is defined. *)
Lemma progress_ratio d t : ~ d == 0 -> 1 - (d - t) / d == t / d.
Proof. intros Hd. field. exact Hd. Qed.

Lemma progress_lt_1 d t : 0 < d -> (1 - (d - t) / d < 1 <-> t < d).
Proof.
  intros Hd. rewrite progress_ratio by (intros E; rewrite E in Hd; discriminate).
  split; intros H.
  - apply (Qmult_lt_r _ _ (/ d)); [now apply Qinv_lt_0_compat|].
    setoid_replace (d * / d) with 1 by (field; intros E; rewrite E in Hd; discriminate).
    exact H.
  - apply Qlt_shift_div_r; [exact Hd|]. now rewrite Qmult_1_l.
Qed.

Lemma progress_ge_1 d t : 0 < d -> 1 <= 1 - (d - t) / d -> d <= t.
Proof.
  intros Hd H. destruct (Qlt_le_dec t d) as [Hlt|Hle]; [exfalso|exact Hle].
  apply (proj2 (progress_lt_1 _ _ Hd)) in Hlt.
  apply (Qlt_irrefl 1). eapply Qle_lt_trans; eassumption.
Qed.





(** ** The generator *)

Section GeneratorFacts.

Variable now : nat -> Z.

Lemma with_reads_same w : with_reads (reads w) w = w.
Proof. now destruct w. Qed.

Lemma while_loop_step fr w :
  Qeq_bool (duration fr) 0 = false ->
  while_loop now fr w =
  if Qltb (t_scaled fr) 1 then
    let v := easing_func fr (t_scaled fr) * y_span fr + start fr in
    let t' := total_seconds (now (reads w) - t_start fr) in
    (Ok (Some (v, Suspended
           (mkFrame (start fr) (stop fr) (duration fr) (easing_func fr)
                    (t_start fr) (y_span fr) t'
                    (sample_ts now (duration fr) (t_start fr) (reads w)) v))),
     with_reads (S (reads w)) w)
  else (Ok None, w).
Proof.
  intros Hd. unfold while_loop, bind, scaled, py_div, datetime_now, ret.
  destruct (Qltb (t_scaled fr) 1); [|reflexivity].
  cbn. rewrite Hd. reflexivity.
Qed.

Lemma next_created_step s e d f w :
  Qeq_bool d 0 = false ->
  next now (Created s e d f) w =
  let t0 := now (reads w) in
  let ts := sample_ts now d t0 (S (reads w)) in
  while_loop now
    (mkFrame s e d f t0 (e - s) (total_seconds (now (S (reads w)) - t0)) ts
             (f ts * (e - s) + s))
    (with_reads (S (S (reads w))) w).
Proof.
  intros Hd. unfold next, bind, scaled, py_div, datetime_now, ret.
  cbn. rewrite Hd. reflexivity.
Qed.

(** A suspended generator whose [t_scaled] comes from sample [n], the last
    one taken: its [k]-th next value comes from sample [n + k], which was
    below 1 when tested, and each value costs one more sample. *)
Lemma drain_suspended fuel : forall fr w n vs st w',
  Qeq_bool (duration fr) 0 = false ->
  reads w = S n ->
  t_scaled fr = sample_ts now (duration fr) (t_start fr) n ->
  drain now fuel (Suspended fr) w = (vs, st, w') ->
  w' = with_reads (S n + List.length vs) w /\
  (forall k v, nth_error vs k = Some v ->
     sample_ts now (duration fr) (t_start fr) (n + k) < 1 /\
     v = easing_func fr (sample_ts now (duration fr) (t_start fr) (n + k))
         * y_span fr + start fr) /\
  (st = Stopped ->
     1 <= sample_ts now (duration fr) (t_start fr) (n + List.length vs) /\
     (List.length vs < fuel)%nat) /\
  (forall e, st <> Failed e) /\
  (forall g, st = Running g -> List.length vs = fuel).
Proof.
  induction fuel as [|fuel IH]; intros fr w n vs st w' Hd Hr Hts Hdr.
  - cbn in Hdr. injection Hdr as <- <- <-. cbn. rewrite Nat.add_0_r, <- Hr.
    rewrite with_reads_same.
    split; [reflexivity|]. split; [intros [|k] v; discriminate|].
    split; [discriminate|]. split; [discriminate|reflexivity].
  - cbn [drain next] in Hdr. rewrite while_loop_step in Hdr by exact Hd.
    destruct (Qltb (t_scaled fr) 1) eqn:Hlt.
    + cbv beta iota zeta in Hdr.
      match type of Hdr with
      | context [drain now fuel (Suspended ?fr1) ?w1] =>
          destruct (drain now fuel (Suspended fr1) w1) as [[vs1 st1] w1'] eqn:Hrec;
          apply (IH fr1 w1 (S n)) in Hrec; [| exact Hd | cbn; now rewrite Hr
                                           | cbn; now rewrite Hr]
      end.
      cbn in Hrec. destruct Hrec as (Hw & Hv & Hs & Hf & Hg).
      injection Hdr as <- <- <-. cbn [List.length].
      split; [|split; [|split; [|split]]].
      * rewrite Hw. unfold with_reads; cbn. f_equal. lia.
      * intros [|k] v H; cbn in H; rewrite ?Nat.add_0_r.
        -- injection H as <-. rewrite <- Hts. split; [now apply Qltb_lt|reflexivity].
        -- apply Hv in H. replace (n + S k)%nat with (S n + k)%nat by lia. apply H.
      * intros E. replace (n + S (List.length vs1))%nat with (S n + List.length vs1)%nat by lia.
        destruct (Hs E) as [H1 H2]. split; [exact H1 | lia].
      * exact Hf.
      * intros g E. f_equal. now apply (Hg g).
    + injection Hdr as <- <- <-. cbn. rewrite Nat.add_0_r, <- Hr, with_reads_same.
      split; [reflexivity|]. split; [intros [|k] v; discriminate|].
      split; [|split; discriminate].
      intros _. rewrite <- Hts. split; [now apply Qltb_ge | lia].
Qed.

(** The same for a generator that has not started: its first step takes
    two samples, [t_start] and the first [t]. *)
Lemma drain_created fuel s e d f w vs st w' :
  Qeq_bool d 0 = false ->
  drain now (S fuel) (Created s e d f) w = (vs, st, w') ->
  w' = with_reads (reads w + 2 + List.length vs) w /\
  (forall k v, nth_error vs k = Some v ->
     sample_ts now d (now (reads w)) (reads w + 1 + k) < 1 /\
     v = f (sample_ts now d (now (reads w)) (reads w + 1 + k)) * (e - s) + s) /\
  (st = Stopped ->
     1 <= sample_ts now d (now (reads w)) (reads w + 1 + List.length vs) /\
     (List.length vs <= fuel)%nat) /\
  (forall x, st <> Failed x) /\
  (forall g, st = Running g -> List.length vs = S fuel).
Proof.
  intros Hd Hdr.
  assert (E : drain now (S fuel) (Created s e d f) w =
              drain now (S fuel)
                (Suspended
                   (mkFrame s e d f (now (reads w)) (e - s)
                      (total_seconds (now (S (reads w)) - now (reads w)))
                      (sample_ts now d (now (reads w)) (S (reads w)))
                      (f (sample_ts now d (now (reads w)) (S (reads w))) * (e - s) + s)))
                (with_reads (S (S (reads w))) w)).
  { cbn [drain]. rewrite next_created_step by exact Hd. reflexivity. }
  rewrite E in Hdr. clear E.
  apply (drain_suspended _ _ _ (S (reads w))) in Hdr; [| exact Hd | reflexivity | reflexivity].
  cbn [duration t_start easing_func y_span start] in Hdr.
  destruct Hdr as (Hw & Hv & Hs & Hf & Hg).
  replace (reads w + 1)%nat with (S (reads w)) by lia.
  split; [|split; [|split; [|split]]].
  - rewrite Hw. unfold with_reads; cbn. f_equal. lia.
  - exact Hv.
  - intros E. destruct (Hs E). split; [assumption | lia].
  - exact Hf.
  - exact Hg.
Qed.

(** Once the generator has stopped within some fuel, more fuel changes
    nothing. *)
Lemma drain_more_fuel fuel : forall g w vs w' fuel',
  drain now fuel g w = (vs, Stopped, w') ->
  (fuel <= fuel')%nat ->
  drain now fuel' g w = (vs, Stopped, w').
Proof.
  induction fuel as [|fuel IH]; intros g w vs w' fuel' H Hle.
  - discriminate.
  - destruct fuel' as [|fuel']; [lia|].
    cbn [drain] in *.
    destruct (next now g w) as [[[[v g']|]|e] w1]; try exact H; try discriminate.
    destruct (drain now fuel g' w1) as [[vs1 st1] w2] eqn:Hrec.
    injection H as <- -> <-.
    rewrite (IH _ _ _ _ fuel' Hrec) by lia. reflexivity.
Qed.

Lemma pos_nonzero d : 0 < d -> Qeq_bool d 0 = false.
Proof.
  intros Hd. apply Qeq_bool_false. intros E. rewrite E in Hd. discriminate.
Qed.

(** The value number [n] exists only if the consumer got [n + 1] values
    out of [n + 1] calls. *)
Lemma drain_full s e d f w n vs st w' v :
  Qeq_bool d 0 = false ->
  drain now (S n) (Created s e d f) w = (vs, st, w') ->
  nth_error vs n = Some v ->
  List.length vs = S n.
Proof.
  intros Hd Hdr Hn.
  assert (Hlt : (n < List.length vs)%nat) by (apply nth_error_Some; congruence).
  destruct (drain_created _ _ _ _ _ _ _ _ _ Hd Hdr) as (_ & _ & Hs & Hf & Hg).
  destruct st as [g| |x].
  - now apply (Hg g).
  - destruct (Hs eq_refl). lia.
  - now destruct (Hf x).
Qed.

(** C1 (amended): under [duration > 0], the value of production step [n]
    is [f(t_norm) * (stop - start) + start] with [t_norm] taken from the
    clock sample that passed the loop test, the one before the freshest.
    Every step does take a fresh sample (three after the first value, one
    more per further value); it serves the next step. *)
Theorem timed_range_value_of_tested_sample start stop d f w n vs st w' v :
  0 < d ->
  drain now (S n) (Created start stop d f) w = (vs, st, w') ->
  nth_error vs n = Some v ->
  reads w' = (reads w + n + 3)%nat /\
  v = f (sample_ts now d (now (reads w)) (reads w' - 2)) * (stop - start) + start.
Proof.
  intros Hd Hdr Hn. apply pos_nonzero in Hd.
  pose proof (drain_full _ _ _ _ _ _ _ _ _ _ Hd Hdr Hn) as Hlen.
  destruct (drain_created _ _ _ _ _ _ _ _ _ Hd Hdr) as (Hw & Hv & _).
  assert (Hr : reads w' = (reads w + n + 3)%nat).
  { rewrite Hw, Hlen. cbn. lia. }
  split; [exact Hr|].
  rewrite Hr. replace (reads w + n + 3 - 2)%nat with (reads w + 1 + n)%nat by lia.
  now apply Hv.
Qed.

(** C2: under [duration > 0], if some clock sample taken after the
    creation is at least [duration] later than it, the generator yields
    finitely many values and stops: fewer values than samples up to that
    one, each computed while less than [duration] had elapsed, and the
    same however long the consumer goes on. *)
Theorem timed_range_finite start stop d f w m :
  0 < d ->
  (reads w < m)%nat ->
  d <= total_seconds (now m - now (reads w)) ->
  exists vs w',
    (List.length vs < m - reads w)%nat /\
    (forall fuel, (m - reads w <= fuel)%nat ->
       drain now fuel (Created start stop d f) w = (vs, Stopped, w')) /\
    (forall k v, nth_error vs k = Some v ->
       total_seconds (now (reads w + 1 + k) - now (reads w)) < d) /\
    d <= total_seconds (now (reads w + 1 + List.length vs) - now (reads w)).
Proof.
  intros Hd Hm Hlate. pose proof (pos_nonzero _ Hd) as Hd0.
  destruct (m - reads w)%nat as [|fuel] eqn:Hfuel; [lia|].
  destruct (drain now (S fuel) (Created start stop d f) w) as [[vs st] w'] eqn:Hdr.
  destruct (drain_created _ _ _ _ _ _ _ _ _ Hd0 Hdr) as (_ & Hv & Hs & Hf & Hg).
  assert (Hst : st = Stopped).
  { destruct st as [g| |x]; [exfalso|reflexivity|now destruct (Hf x)].
    pose proof (Hg g eq_refl) as Hlen.
    destruct (nth_error vs fuel) as [v|] eqn:Hn.
    - apply Hv in Hn. destruct Hn as [Hlt _].
      replace (reads w + 1 + fuel)%nat with m in Hlt by lia.
      unfold sample_ts in Hlt. apply (proj1 (progress_lt_1 _ _ Hd)) in Hlt.
      apply (Qlt_irrefl d). eapply Qle_lt_trans; eassumption.
    - apply nth_error_None in Hn. lia. }
  subst st. destruct (Hs eq_refl) as [Hge Hlen].
  exists vs, w'. split; [lia|]. split; [|split].
  - intros fuel' Hle. eapply drain_more_fuel; [exact Hdr|exact Hle].
  - intros k v Hn. apply Hv in Hn. destruct Hn as [Hlt _].
    unfold sample_ts in Hlt. now apply (proj1 (progress_lt_1 _ _ Hd)) in Hlt.
  - unfold sample_ts in Hge. now apply progress_ge_1 in Hge.
Qed.

Lemma drain_zero_duration start stop d f w fuel :
  Qeq_bool d 0 = true ->
  drain now (S fuel) (Created start stop d f) w =
  ([], Failed ZeroDivisionError, with_reads (reads w + 2) w).
Proof.
  intros Hd. cbn [drain]. unfold next, bind, scaled, py_div, datetime_now.
  cbn. rewrite Hd. cbn. unfold with_reads. repeat f_equal. lia.
Qed.

(** C9: with [duration = 0] the first [next()] raises [ZeroDivisionError]
    at the first progress computation, after the two clock samples it
    needs and before any value is yielded; with [duration > 0] no step of
    the generator raises. *)
Theorem zero_duration_raises start stop d f w fuel :
  (d == 0 ->
   drain now (S fuel) (Created start stop d f) w =
   ([], Failed ZeroDivisionError, with_reads (reads w + 2) w)) /\
  (0 < d ->
   forall e, snd (fst (drain now (S fuel) (Created start stop d f) w)) <> Failed e).
Proof.
  split.
  - intros Hd. apply Qeq_eq_bool in Hd. now apply drain_zero_duration.
  - intros Hd e. apply pos_nonzero in Hd.
    destruct (drain now (S fuel) (Created start stop d f) w) as [[vs st] w'] eqn:Hdr.
    destruct (drain_created _ _ _ _ _ _ _ _ _ Hd Hdr) as (_ & _ & _ & Hf & _).
    apply Hf.
Qed.

Lemma sample_ts_nonneg d t0 n :
  0 < d -> (t0 <= now n)%Z -> 0 <= sample_ts now d t0 n.
Proof.
  intros Hd Hle. unfold sample_ts.
  rewrite progress_ratio by (intros E; rewrite E in Hd; discriminate).
  apply Qle_shift_div_l; [exact Hd|]. rewrite Qmult_0_l.
  unfold total_seconds, Qle. cbn. lia.
Qed.


Lemma clock_mono :
  (forall n, (now n <= now (S n))%Z) ->
  forall j k, (j <= k)%nat -> (now j <= now k)%Z.
Proof.
  intros H j k Hjk. induction Hjk as [|k _ IH]; [lia|].
  specialize (H k). lia.
Qed.


End GeneratorFacts.

(** ** The generator on the sample clock *)

(** C1 (as stated) fails: on the sample clock, from 0 to 10 over one
    second with the identity easing, the first value handed out is 0,
    computed from the sample at 0 s, although the sample at 0.5 s has been
    taken before the [yield]; the freshest sample would give 5. *)
Lemma freshest_sample_claim_fails :
  ~ uses_freshest_sample sample_clock 0 10 1 (fun t => t) sample_world.
Proof.
  intros H.
  destruct (drain sample_clock 1 (Created 0 10 1 (fun t => t)) sample_world)
    as [[vs st] w'] eqn:E.
  pose proof (H 0%nat vs st w') as H0. rewrite E in H0.
  vm_compute in E. injection E as <- <- <-.
  specialize (H0 _ eq_refl eq_refl). vm_compute in H0. discriminate.
Qed.



(** On the sample clock the second value is handed out after four samples
    and comes from the third. *)
Lemma timed_range_value_of_tested_sample_witness :
  0 < 1 /\
  exists vs st w' v,
    drain sample_clock 2 (Created 0 10 1 (fun t => t)) sample_world = (vs, st, w') /\
    nth_error vs 1 = Some v /\
    reads w' = 4%nat /\
    v = sample_ts sample_clock 1 0 2 * (10 - 0) + 0.
Proof.
  split; [reflexivity|].
  destruct (drain sample_clock 2 (Created 0 10 1 (fun t => t)) sample_world)
    as [[vs st] w'] eqn:E.
  destruct (nth_error vs 1) as [v|] eqn:Hn.
  - exists vs, st, w', v. split; [reflexivity|]. split; [exact Hn|].
    destruct (timed_range_value_of_tested_sample sample_clock 0 10 1 (fun t => t)
                sample_world 1 vs st w' v eq_refl E Hn) as [Hr Hv].
    split; [exact Hr|]. rewrite Hr in Hv. exact Hv.
  - vm_compute in E. injection E as <- <- <-. discriminate.
Defined.

(** On the sample clock the sample number 4 is one second after the
    creation, the duration. *)
Lemma timed_range_finite_witness :
  0 < 1 /\ (reads sample_world < 4)%nat /\
  1 <= total_seconds (sample_clock 4 - sample_clock (reads sample_world)) /\
  exists vs w',
    (List.length vs < 4 - reads sample_world)%nat /\
    (forall fuel, (4 - reads sample_world <= fuel)%nat ->
       drain sample_clock fuel (Created 0 10 1 (fun t => t)) sample_world
       = (vs, Stopped, w')) /\
    (forall k v, nth_error vs k = Some v ->
       total_seconds (sample_clock (reads sample_world + 1 + k)
                      - sample_clock (reads sample_world)) < 1) /\
    1 <= total_seconds (sample_clock (reads sample_world + 1 + List.length vs)
                        - sample_clock (reads sample_world)).
Proof.
  assert (H1 : 0 < 1) by reflexivity.
  assert (H2 : (reads sample_world < 4)%nat) by (cbn; lia).
  assert (H3 : 1 <= total_seconds (sample_clock 4 - sample_clock (reads sample_world)))
    by (vm_compute; discriminate).
  split; [exact H1|]. split; [exact H2|]. split; [exact H3|].
  exact (timed_range_finite sample_clock 0 10 1 (fun t => t) sample_world 4 H1 H2 H3).
Defined.

(** Durations 0 and 1 on the sample clock. *)
Lemma zero_duration_raises_witness :
  (0 == 0 /\
   drain sample_clock 1 (Created 0 10 0 (fun t => t)) sample_world =
   ([], Failed ZeroDivisionError, with_reads (reads sample_world + 2) sample_world)) /\
  (0 < 1 /\
   forall e,
     snd (fst (drain sample_clock 1 (Created 0 10 1 (fun t => t)) sample_world))
     <> Failed e).
Proof.
  split; split.
  - reflexivity.
  - apply (proj1 (zero_duration_raises sample_clock 0 10 0 (fun t => t) sample_world 0)).
    reflexivity.
  - reflexivity.
  - apply (proj2 (zero_duration_raises sample_clock 0 10 1 (fun t => t) sample_world 0)).
    reflexivity.
Defined.

Lemma sample_clock_mono n : (sample_clock n <= sample_clock (S n))%Z.
Proof.
  do 4 (destruct n as [|n]; [cbn; lia|]). cbn. lia.
Qed.


(** ** Text and integers *)

Lemma lstrip_plain s : all_plain s = true -> lstrip s = s.
Proof.
  destruct s as [|c s]; [reflexivity|]. cbn. unfold plain.
  destruct (is_space c); [discriminate|reflexivity].
Qed.

Lemma rstrip_plain s : all_plain s = true -> rstrip s = s.
Proof.
  induction s as [|c s IH]; [reflexivity|]. cbn [all_plain rstrip].
  intros H. apply andb_true_iff in H. destruct H as [Hc Hs].
  rewrite (IH Hs). destruct s; [|reflexivity].
  unfold plain in Hc. destruct (is_space c); [discriminate|reflexivity].
Qed.

Lemma strip_plain s : all_plain s = true -> strip s = s.
Proof.
  intros H. unfold strip. rewrite (lstrip_plain _ H). now apply rstrip_plain.
Qed.

Lemma string_of_uint_plain d : all_plain (NilEmpty.string_of_uint d) = true.
Proof. induction d; cbn; try rewrite IHd; reflexivity. Qed.

Lemma str_plain z : all_plain (str z) = true.
Proof.
  unfold str. destruct z as [|p|p]; cbn; [reflexivity| |].
  - destruct (Pos.to_uint p); try reflexivity; apply (string_of_uint_plain (_ _)).
  - destruct (Pos.to_uint p); try reflexivity; apply (string_of_uint_plain (_ _)).
Qed.

(** What [str] prints, [int] reads back. *)
Lemma literal_str z : literal (strip (str z)) = Some z.
Proof.
  rewrite (strip_plain _ (str_plain z)).
  pose proof (str_plain z) as Hp. unfold literal.
  assert (Hi : NilZero.int_of_string (str z) = Some (Z.to_int z)).
  { apply NilZero.isi; destruct z as [|p|p]; cbn; try discriminate;
      intros [= E]; now apply (Unsigned.to_uint_nonnil p). }
  destruct (str z) as [|c s] eqn:E.
  - discriminate.
  - cbn in Hp. apply andb_true_iff in Hp. destruct Hp as [Hc _].
    unfold plain in Hc. apply andb_true_iff in Hc. destruct Hc as [_ Hc].
    apply negb_true_iff in Hc. rewrite Hc, Hi. cbn. now rewrite DecimalZ.of_to.
Qed.

Lemma py_int_inject_Z z : py_int (inject_Z z) = z.
Proof. unfold py_int. cbn. apply Z.quot_1_r. Qed.

(** ** The handle *)

Lemma with_brightness_same w : with_brightness (brightness_file w) w = w.
Proof. now destruct w. Qed.

Lemma set_brightness_above c v w :
  inject_Z (_max c) < v -> set_brightness c v w = (Raise ValueError, w).
Proof.
  intros H. unfold set_brightness. apply Qltb_lt in H. now rewrite H.
Qed.

Lemma set_brightness_within c v w :
  v <= inject_Z (_max c) ->
  set_brightness c v w = (Ok tt, with_brightness (str (py_int v)) w).
Proof.
  intros H. unfold set_brightness. apply Qltb_ge in H. now rewrite H.
Qed.

(** C4: the setter raises if and only if [v > max], and then leaves the
    world as it was; otherwise it stores [str(int(v))], the truncated
    value.  A negative [v] is not rejected. *)
Theorem set_brightness_raises_iff_above_max c v w :
  ((exists e, fst (set_brightness c v w) = Raise e) <-> inject_Z (_max c) < v) /\
  (inject_Z (_max c) < v -> set_brightness c v w = (Raise ValueError, w)) /\
  (v <= inject_Z (_max c) ->
   set_brightness c v w = (Ok tt, with_brightness (str (py_int v)) w)) /\
  (v < 0 -> (0 <= _max c)%Z ->
   set_brightness c v w = (Ok tt, with_brightness (str (py_int v)) w)).
Proof.
  split; [|split; [|split]].
  - split.
    + intros [e He]. destruct (Qlt_le_dec (inject_Z (_max c)) v) as [H|H]; [exact H|].
      rewrite (set_brightness_within _ _ _ H) in He. discriminate.
    + intros H. exists ValueError. now rewrite set_brightness_above.
  - apply set_brightness_above.
  - apply set_brightness_within.
  - intros Hv Hm. apply set_brightness_within.
    apply Qlt_le_weak. eapply Qlt_le_trans; [exact Hv|].
    change 0 with (inject_Z 0). now rewrite <- Zle_Qle.
Qed.

(** What the setter stores never exceeds the maximum. *)
Lemma set_brightness_upper_bound c v w w' :
  set_brightness c v w = (Ok tt, w') ->
  brightness_file w' = str (py_int v) /\ (py_int v <= _max c)%Z.
Proof.
  intros H. destruct (Qlt_le_dec (inject_Z (_max c)) v) as [Hlt|Hle].
  - rewrite set_brightness_above in H by exact Hlt. discriminate.
  - rewrite set_brightness_within in H by exact Hle. injection H as <-.
    split; [reflexivity|].
    unfold py_int. unfold Qle in Hle. cbn in Hle.
    apply Z.quot_le_upper_bound; lia.
Qed.

(** C3 (the code breaks it): on a handle with maximum 100, setting the
    brightness to -5 succeeds and the endpoint then reads -5, a value
    below 0. *)
Theorem set_brightness_stores_negative :
  (set_brightness (mkControl 100) (-5 # 1) ;;; get_brightness (mkControl 100))
    sample_world
  = (Ok (-5)%Z, with_brightness "-5" sample_world).
Proof. vm_compute. reflexivity. Qed.

(** C7: after a successful [set brightness(v)] with an integer [v <= max],
    a read of the brightness returns [v]. *)
Theorem get_after_set c v w :
  (v <= _max c)%Z ->
  set_brightness c (inject_Z v) w = (Ok tt, with_brightness (str v) w) /\
  get_brightness c (with_brightness (str v) w) = (Ok v, with_brightness (str v) w).
Proof.
  intros H. split.
  - rewrite set_brightness_within by now rewrite <- Zle_Qle.
    now rewrite py_int_inject_Z.
  - unfold get_brightness, int_of_text. cbn [brightness_file with_brightness].
    now rewrite literal_str.
Qed.

(** Setting 70 on a handle with maximum 100. *)
Lemma get_after_set_witness :
  (70 <= _max (mkControl 100))%Z /\
  set_brightness (mkControl 100) (inject_Z 70) sample_world
  = (Ok tt, with_brightness (str 70) sample_world) /\
  get_brightness (mkControl 100) (with_brightness (str 70) sample_world)
  = (Ok 70%Z, with_brightness (str 70) sample_world).
Proof.
  assert (H : (70 <= _max (mkControl 100))%Z) by (cbn; lia).
  split; [exact H|]. exact (get_after_set (mkControl 100) 70 sample_world H).
Defined.

(** ** The animation *)

(** Runs one [next()] symbolically, splitting on every test it makes. *)
Ltac run_next g :=
  destruct g as [? ? ? ?|?|]; cbn;
  unfold while_loop, bind, scaled, py_div, datetime_now, ret, raise; cbn;
  repeat (match goal with
          | |- context [if ?b then _ else _] => destruct b
          end; cbn).

Section AnimateFacts.

Variable now : nat -> Z.

(** The generator neither reads nor changes the endpoint. *)
Lemma next_with_brightness g text w :
  next now g (with_brightness text w) =
  (fst (next now g w), with_brightness text (snd (next now g w))).
Proof. run_next g; reflexivity. Qed.

Lemma next_brightness_file g w :
  brightness_file (snd (next now g w)) = brightness_file w.
Proof. run_next g; reflexivity. Qed.


Lemma drain_with_brightness text fuel : forall g w vs st w',
  drain now fuel g w = (vs, st, w') ->
  drain now fuel g (with_brightness text w) = (vs, st, with_brightness text w').
Proof.
  induction fuel as [|fuel IH]; intros g w vs st w' H.
  - cbn in *. now injection H as <- <- <-.
  - cbn [drain] in *. rewrite next_with_brightness.
    destruct (next now g w) as [[[[v g']|]|e] w1]; cbn [fst snd].
    + destruct (drain now fuel g' w1) as [[vs1 st1] w2] eqn:Hrec.
      rewrite (IH _ _ _ _ _ Hrec). now injection H as <- <- <-.
    + now injection H as <- <- <-.
    + now injection H as <- <- <-.
Qed.

Lemma drain_S fuel g w :
  drain now (S fuel) g w =
  match next now g w with
  | (Ok None, w') => ([], Stopped, w')
  | (Ok (Some (v, g')), w') =>
      let '(vs, s, w'') := drain now fuel g' w' in (v :: vs, s, w'')
  | (Raise e, w') => ([], Failed e, w')
  end.
Proof. reflexivity. Qed.

Lemma fold_written vs : forall before,
  fold_left (fun _ u => str (py_int u)) vs before = last_written vs before.
Proof.
  unfold last_written.
  induction vs as [|u vs IH] using rev_ind; intros before; [reflexivity|].
  rewrite fold_left_app, rev_app_distr. reflexivity.
Qed.

(** The loop of [animate] against the values the generator hands out: if
    the value number [k] is the first above the maximum, the loop writes
    the [k] values before it, raises at once, and leaves the generator
    where it stood when it yielded that value. *)
Lemma for_loop_aborts c : forall k fuel g w vs st w1 v,
  drain now (S k) g w = (vs, st, w1) ->
  nth_error vs k = Some v ->
  inject_Z (_max c) < v ->
  (forall j u, (j < k)%nat -> nth_error vs j = Some u -> u <= inject_Z (_max c)) ->
  (k < fuel)%nat ->
  for_loop now fuel c g w =
  Some (Raise ValueError,
        with_brightness
          (fold_left (fun _ u => str (py_int u)) (firstn k vs) (brightness_file w))
          w1).
Proof.
  induction k as [|k IH]; intros fuel g w vs st w1 v Hdr Hn Hv Hpre Hfuel;
    (destruct fuel as [|fuel]; [lia|]);
    rewrite drain_S in Hdr; cbn [for_loop];
    pose proof (next_brightness_file g w) as Hb;
    destruct (next now g w) as [[[[v0 g']|]|e] w'];
    try (injection Hdr as <- <- <-; discriminate).
  - cbn in Hdr. injection Hdr as <- <- <-. cbn in Hn. injection Hn as ->.
    rewrite set_brightness_above by exact Hv.
    cbn in *. now rewrite <- Hb, with_brightness_same.
  - destruct (drain now (S k) g' w') as [[vs1 st1] w2] eqn:Hrec.
    injection Hdr as <- <- <-. cbn [nth_error] in Hn.
    rewrite set_brightness_within by (apply (Hpre 0%nat); [lia|reflexivity]).
    apply (drain_with_brightness (str (py_int v0))) in Hrec.
    rewrite (IH fuel _ _ _ _ _ v Hrec Hn Hv); [| |lia].
    + cbn in *. reflexivity.
    + intros j u Hj Hu. apply (Hpre (S j)); [lia|exact Hu].
Qed.

(** C5: if the value number [k] of the animation is the first to exceed
    the maximum, [animate] raises the [ValueError] of the setter.  The
    endpoint then holds the value before it, truncated (or what it held
    when there is none), and the generator has taken no clock sample
    beyond those of its first [k + 1] values.  The test is on the value as
    produced, neither clamped nor rounded. *)
Theorem animate_aborts_on_overshoot c target d f w b pre v st w1 fuel :
  get_brightness c w = (Ok b, w) ->
  drain now (S (List.length pre)) (Created (inject_Z b) target d f) w
  = ((pre ++ [v])%list, st, w1) ->
  Forall (fun u => u <= inject_Z (_max c)) pre ->
  inject_Z (_max c) < v ->
  (List.length pre < fuel)%nat ->
  animate now fuel c target d f w =
  Some (Raise ValueError,
        with_brightness (last_written pre (brightness_file w)) w1) /\
  reads w1 = (reads w + List.length pre + 3)%nat.
Proof.
  intros Hget Hdr Hpre Hv Hfuel. split.
  - unfold animate. rewrite Hget.
    rewrite (for_loop_aborts c (List.length pre) fuel _ _ _ _ _ v Hdr); try assumption.
    + rewrite firstn_app, firstn_all, Nat.sub_diag. cbn [firstn].
      now rewrite app_nil_r, fold_written.
    + rewrite nth_error_app2, Nat.sub_diag by lia. reflexivity.
    + intros j u Hj Hu. rewrite nth_error_app1 in Hu by exact Hj.
      rewrite Forall_forall in Hpre. apply Hpre. eapply nth_error_In; eassumption.
  - destruct (Qeq_bool d 0) eqn:Hd.
    + rewrite (drain_zero_duration now _ _ _ _ _ _ Hd) in Hdr.
      injection Hdr as E _ _. now destruct pre.
    + destruct (drain_created _ _ _ _ _ _ _ _ _ _ Hd Hdr) as (-> & _).
      cbn. rewrite length_app. cbn. lia.
Qed.





End AnimateFacts.

(** From 50 toward 151 with maximum 100 on the sample clock: 50 is
    written, then 100.5 is refused although [int] takes it to 100. *)
Lemma animate_aborts_on_overshoot_witness :
  let c := mkControl 100 in
  let pre := [sample_ts sample_clock 1 0 1 * (151 - inject_Z 50) + inject_Z 50] in
  let v := sample_ts sample_clock 1 0 2 * (151 - inject_Z 50) + inject_Z 50 in
  let r := drain sample_clock 2 (Created (inject_Z 50) 151 1 (fun t => t))
             sample_world in
  (get_brightness c sample_world = (Ok 50%Z, sample_world) /\
   drain sample_clock (S (List.length pre)) (Created (inject_Z 50) 151 1 (fun t => t))
     sample_world = ((pre ++ [v])%list, snd (fst r), snd r) /\
   Forall (fun u => u <= inject_Z (_max c)) pre /\
   inject_Z (_max c) < v /\
   (List.length pre < 5)%nat) /\
  py_int v = 100%Z /\
  animate sample_clock 5 c 151 1 (fun t => t) sample_world =
  Some (Raise ValueError, with_brightness "50" (snd r)) /\
  reads (snd r) = 4%nat.
Proof.
  intros c pre v r.
  assert (H1 : get_brightness c sample_world = (Ok 50%Z, sample_world))
    by reflexivity.
  assert (H2 : drain sample_clock (S (List.length pre))
                 (Created (inject_Z 50) 151 1 (fun t => t)) sample_world
               = ((pre ++ [v])%list, snd (fst r), snd r))
    by (vm_compute; reflexivity).
  assert (H3 : Forall (fun u => u <= inject_Z (_max c)) pre)
    by (repeat constructor; vm_compute; discriminate).
  assert (H4 : inject_Z (_max c) < v) by (vm_compute; reflexivity).
  assert (H5 : (List.length pre < 5)%nat) by (cbn; lia).
  split; [repeat split; assumption|]. split; [vm_compute; reflexivity|].
  exact (animate_aborts_on_overshoot sample_clock c 151 1 (fun t => t) sample_world
           50 pre v (snd (fst r)) (snd r) 5 H1 H2 H3 H4 H5).
Defined.

(** ** The command line *)

Section MainFacts.

Variable now : nat -> Z.
Variable pytweening : string -> option (Q -> Q).
Variable easeOutCubic : Q -> Q.
Variable usage : string.

(** What the usage error leaves: the message and the usage line on the
    error stream, everything else as it was. *)
Lemma main_animate_usage_error fuel a c w :
  not_operand (args_operand a) = true ->
  main_animate now pytweening easeOutCubic usage fuel a c w =
  Some (Raise (SystemExit 1),
        mkWorld (reads w) (max_brightness_file w) (brightness_file w) (stdout w)
          ((stderr w ++ [("The " ++ action_name (args_action a)
                            ++ " action requires an operand!")%string])
             ++ [usage])%list).
Proof. intros H. unfold main_animate. rewrite H. reflexivity. Qed.

(** C8 (the code breaks it): [set 0], [inc 0] and [dec 0] give an integer
    operand, yet the program reports that the action requires an operand
    and exits with code 1, the backlight untouched. *)
Theorem main_zero_operand_is_usage_error fuel act d e :
  match act with
  | show | max => True
  | _ =>
      main now pytweening easeOutCubic usage fuel (mkArgs act (Some 0%Z) d e)
        sample_world
      = Some (Raise (SystemExit 1),
              mkWorld 0 "100" "50" []
                ["The " ++ action_name act ++ " action requires an operand!"; usage])
      /\ exit_code (Raise (SystemExit 1)) = 1%Z
  end.
Proof. destruct act; try exact I; split; reflexivity. Qed.

(** With no operand at all the same happens, as the claim says. *)
Lemma main_missing_operand fuel act d e :
  match act with
  | show | max => True
  | _ =>
      main now pytweening easeOutCubic usage fuel (mkArgs act None d e)
        sample_world
      = Some (Raise (SystemExit 1),
              mkWorld 0 "100" "50" []
                ["The " ++ action_name act ++ " action requires an operand!"; usage])
  end.
Proof. destruct act; try exact I; reflexivity. Qed.


End MainFacts.

(** * Further properties of the code *)

(** ** Reading the endpoints *)

Lemma lstrip_space_app l s : all_space l = true -> lstrip (l ++ s) = lstrip s.
Proof.
  induction l as [|c l IH]; [reflexivity|]. cbn. intros H.
  apply andb_true_iff in H. destruct H as [Hc Hl]. rewrite Hc. now apply IH.
Qed.

Lemma rstrip_space r : all_space r = true -> rstrip r = "".
Proof.
  induction r as [|c r IH]; [reflexivity|]. cbn. intros H.
  apply andb_true_iff in H. destruct H as [Hc Hr]. now rewrite (IH Hr), Hc.
Qed.

Lemma rstrip_app_space s r : all_space r = true -> rstrip (s ++ r) = rstrip s.
Proof.
  intros Hr. induction s as [|c s IH]; cbn.
  - now apply rstrip_space.
  - now rewrite IH.
Qed.

Lemma str_nonempty z : str z <> "".
Proof.
  intros E. pose proof (literal_str z) as H. rewrite E in H. discriminate.
Qed.

Lemma strip_surrounded l r z :
  all_space l = true -> all_space r = true -> strip (l ++ str z ++ r) = str z.
Proof.
  intros Hl Hr. unfold strip. rewrite lstrip_space_app by exact Hl.
  pose proof (str_plain z) as Hp. pose proof (str_nonempty z) as Hn.
  pose proof (rstrip_plain _ Hp) as Hrs.
  destruct (str z) as [|c s]; [contradiction|].
  cbn [append lstrip]. cbn [all_plain] in Hp.
  apply andb_true_iff in Hp. destruct Hp as [Hc _]. unfold plain in Hc.
  apply andb_true_iff in Hc. destruct Hc as [Hc _]. apply negb_true_iff in Hc.
  rewrite Hc. change (String c (s ++ r)) with (String c s ++ r).
  now rewrite rstrip_app_space.
Qed.

Lemma int_of_text_surrounded l r z w :
  all_space l = true -> all_space r = true ->
  int_of_text (l ++ str z ++ r) w = (Ok z, w).
Proof.
  intros Hl Hr. unfold int_of_text. rewrite strip_surrounded by assumption.
  pose proof (literal_str z) as H. rewrite (strip_plain _ (str_plain z)) in H.
  now rewrite H.
Qed.

(** X1: whatever white space surrounds the decimal text of [z] in the
    [brightness] endpoint (sysfs ends it with a line feed), reading the
    brightness returns [z] and changes nothing. *)
Theorem get_brightness_ignores_white_space c l r z w :
  all_space l = true -> all_space r = true ->
  brightness_file w = l ++ str z ++ r ->
  get_brightness c w = (Ok z, w).
Proof.
  intros Hl Hr E. unfold get_brightness. rewrite E.
  now apply int_of_text_surrounded.
Qed.

Lemma get_brightness_ignores_white_space_witness :
  (all_space "" = true /\ all_space newline = true /\
   brightness_file sysfs_world = "" ++ str 50 ++ newline) /\
  get_brightness (mkControl 100) sysfs_world = (Ok 50%Z, sysfs_world).
Proof.
  assert (H1 : all_space "" = true) by reflexivity.
  assert (H2 : all_space newline = true) by reflexivity.
  assert (H3 : brightness_file sysfs_world = "" ++ str 50 ++ newline) by reflexivity.
  split; [repeat split; assumption|].
  exact (get_brightness_ignores_white_space (mkControl 100) "" newline 50
           sysfs_world H1 H2 H3).
Defined.

Lemma open_max_text l r m w :
  all_space l = true -> all_space r = true ->
  max_brightness_file w = l ++ str m ++ r ->
  open w = (Ok (mkControl m), w).
Proof.
  intros Hl Hr E. unfold open, bind. rewrite E.
  now rewrite int_of_text_surrounded.
Qed.

(** X2: [open] caches as [max] the integer whose decimal text, with any
    white space around it, is in the [max_brightness] endpoint, and
    changes nothing. *)
Theorem open_caches_max l r m w :
  all_space l = true -> all_space r = true ->
  max_brightness_file w = l ++ str m ++ r ->
  open w = (Ok (mkControl m), w).
Proof.
  intros Hl Hr E. unfold open, bind. rewrite E.
  now rewrite int_of_text_surrounded.
Qed.

Lemma open_caches_max_witness :
  (all_space "" = true /\ all_space newline = true /\
   max_brightness_file sysfs_world = "" ++ str 100 ++ newline) /\
  open sysfs_world = (Ok (mkControl 100), sysfs_world).
Proof.
  assert (H1 : all_space "" = true) by reflexivity.
  assert (H2 : all_space newline = true) by reflexivity.
  assert (H3 : max_brightness_file sysfs_world = "" ++ str 100 ++ newline)
    by reflexivity.
  split; [repeat split; assumption|].
  exact (open_caches_max "" newline 100 sysfs_world H1 H2 H3).
Defined.

(** ** Writing fractional values *)

(** [int] truncates toward zero: the integer lies between 0 and the
    number, less than 1 away from it. *)
Lemma py_int_toward_zero v :
  (0 <= v -> inject_Z 0 <= inject_Z (py_int v) /\ inject_Z (py_int v) <= v
             /\ v < inject_Z (py_int v + 1)) /\
  (v <= 0 -> inject_Z (py_int v) <= inject_Z 0 /\ v <= inject_Z (py_int v)
             /\ inject_Z (py_int v - 1) < v).
Proof.
  destruct v as [n p]. unfold py_int, Qle, Qlt, inject_Z. cbn.
  pose proof (Z.quot_rem' n (Z.pos p)) as Hqr.
  split; intros H.
  - assert (Hn : (0 <= n)%Z) by lia.
    pose proof (Z.rem_bound_pos n (Z.pos p) Hn ltac:(lia)) as Hr.
    pose proof (Z.quot_pos n (Z.pos p) Hn ltac:(lia)) as Hq. nia.
  - assert (Hn : (0 <= - n)%Z) by lia.
    pose proof (Z.rem_bound_pos (- n) (Z.pos p) Hn ltac:(lia)) as Hr.
    rewrite Z.rem_opp_l in Hr by lia.
    pose proof (Z.quot_pos (- n) (Z.pos p) Hn ltac:(lia)) as Hq.
    rewrite Z.quot_opp_l in Hq by lia. nia.
Qed.

(** X3: after a successful [set brightness(v)] with any number [v], whole
    or not, a read returns [int(v)]: an integer at most [max], on the side
    of [v] toward zero and less than 1 away from it. *)
Theorem get_after_set_truncates c v w w' :
  set_brightness c v w = (Ok tt, w') ->
  exists z,
    get_brightness c w' = (Ok z, w') /\
    (z <= _max c)%Z /\
    (0 <= v -> (0 <= z)%Z /\ inject_Z z <= v /\ v < inject_Z (z + 1)) /\
    (v <= 0 -> (z <= 0)%Z /\ v <= inject_Z z /\ inject_Z (z - 1) < v).
Proof.
  intros H. destruct (set_brightness_upper_bound _ _ _ _ H) as [Hf Hm].
  exists (py_int v). split; [|split; [exact Hm|]].
  - unfold get_brightness, int_of_text. rewrite Hf, literal_str. reflexivity.
  - destruct (py_int_toward_zero v) as [Hp Hn]. split; intros Hv.
    + destruct (Hp Hv) as (H0 & H1 & H2). rewrite <- Zle_Qle in H0. tauto.
    + destruct (Hn Hv) as (H0 & H1 & H2). rewrite <- Zle_Qle in H0. tauto.
Qed.

Lemma get_after_set_truncates_witness :
  set_brightness (mkControl 100) (145 # 2) sample_world
  = (Ok tt, with_brightness "72" sample_world) /\
  exists z,
    get_brightness (mkControl 100) (with_brightness "72" sample_world)
    = (Ok z, with_brightness "72" sample_world) /\
    (z <= 100)%Z /\
    (0 <= 145 # 2 -> (0 <= z)%Z /\ inject_Z z <= 145 # 2 /\ 145 # 2 < inject_Z (z + 1)) /\
    (145 # 2 <= 0 -> (z <= 0)%Z /\ 145 # 2 <= inject_Z z /\ inject_Z (z - 1) < 145 # 2).
Proof.
  assert (H : set_brightness (mkControl 100) (145 # 2) sample_world
              = (Ok tt, with_brightness "72" sample_world)) by reflexivity.
  split; [exact H|].
  exact (get_after_set_truncates (mkControl 100) (145 # 2) sample_world _ H).
Defined.

(** ** Animations that run to their end *)

Section AnimateRuns.

Variable now : nat -> Z.

(** The loop of [animate] on a generator that stops while all its values
    are within the maximum: every value is written, the last one stays. *)
Lemma for_loop_completes c fuel : forall g w vs w1,
  drain now fuel g w = (vs, Stopped, w1) ->
  Forall (fun u => u <= inject_Z (_max c)) vs ->
  forall fuel', (fuel <= fuel')%nat ->
  for_loop now fuel' c g w =
  Some (Ok tt,
        with_brightness
          (fold_left (fun _ u => str (py_int u)) vs (brightness_file w)) w1).
Proof.
  induction fuel as [|fuel IH]; intros g w vs w1 Hdr Hall fuel' Hle;
    [discriminate|].
  destruct fuel' as [|fuel']; [lia|].
  rewrite drain_S in Hdr. cbn [for_loop].
  pose proof (next_brightness_file now g w) as Hb.
  destruct (next now g w) as [[[[v0 g']|]|e] w']; [| |discriminate].
  - destruct (drain now fuel g' w') as [[vs1 st1] w2] eqn:Hrec.
    injection Hdr as <- -> <-. inversion Hall as [|? ? Hv0 Hall1]; subst.
    rewrite set_brightness_within by exact Hv0.
    apply (drain_with_brightness now (str (py_int v0))) in Hrec.
    rewrite (IH _ _ _ _ Hrec Hall1 fuel') by lia.
    cbn in *. reflexivity.
  - injection Hdr as <- <-. cbn in *. now rewrite <- Hb, with_brightness_same.
Qed.

(** The loop on a generator that is still running when the fuel is spent:
    it has not returned. *)
Lemma for_loop_runs_on c fuel : forall g w vs g1 w1,
  drain now fuel g w = (vs, Running g1, w1) ->
  Forall (fun u => u <= inject_Z (_max c)) vs ->
  for_loop now fuel c g w = None.
Proof.
  induction fuel as [|fuel IH]; intros g w vs g1 w1 Hdr Hall; [reflexivity|].
  rewrite drain_S in Hdr. cbn [for_loop].
  destruct (next now g w) as [[[[v0 g']|]|e] w']; [|discriminate|discriminate].
  destruct (drain now fuel g' w') as [[vs1 st1] w2] eqn:Hrec.
  injection Hdr as <- -> <-. inversion Hall as [|? ? Hv0 Hall1]; subst.
  rewrite set_brightness_within by exact Hv0.
  apply (drain_with_brightness now (str (py_int v0))) in Hrec.
  now apply (IH _ _ _ _ _ Hrec).
Qed.

Lemma int_of_text_anywhere s w b w2 :
  int_of_text s w = (Ok b, w) -> int_of_text s w2 = (Ok b, w2).
Proof.
  unfold int_of_text. destruct (literal (strip s)); [|discriminate].
  now intros [= ->].
Qed.

(** X4: when the generator stops and none of its values exceeds the
    maximum, [animate] returns normally, having written every value; the
    endpoint holds the last one truncated (its old text if there was none)
    and the clock has been sampled twice plus once per value. *)
Theorem animate_completes c target d f w b fuel vs w1 fuel' :
  get_brightness c w = (Ok b, w) ->
  drain now fuel (Created (inject_Z b) target d f) w = (vs, Stopped, w1) ->
  Forall (fun u => u <= inject_Z (_max c)) vs ->
  (fuel <= fuel')%nat ->
  animate now fuel' c target d f w =
  Some (Ok tt, with_brightness (last_written vs (brightness_file w)) w1) /\
  reads w1 = (reads w + 2 + List.length vs)%nat.
Proof.
  intros Hget Hdr Hall Hle. split.
  - unfold animate. rewrite Hget.
    rewrite (for_loop_completes c fuel _ _ _ _ Hdr Hall fuel' Hle).
    now rewrite fold_written.
  - destruct fuel as [|fuel]; [discriminate|].
    destruct (Qeq_bool d 0) eqn:Hd.
    + rewrite (drain_zero_duration now _ _ _ _ _ _ Hd) in Hdr. discriminate.
    + destruct (drain_created _ _ _ _ _ _ _ _ _ _ Hd Hdr) as (-> & _).
      reflexivity.
Qed.

(** A generator with a positive duration stops by the first sample that
    is [duration] after its creation. *)
Lemma drain_stops start stop d f w m :
  0 < d ->
  (reads w < m)%nat ->
  d <= total_seconds (now m - now (reads w)) ->
  exists vs w',
    drain now (m - reads w) (Created start stop d f) w = (vs, Stopped, w') /\
    (List.length vs < m - reads w)%nat.
Proof.
  intros Hd Hm Hlate. pose proof (pos_nonzero _ Hd) as Hd0.
  destruct (m - reads w)%nat as [|fuel] eqn:Hfuel; [lia|].
  destruct (drain now (S fuel) (Created start stop d f) w) as [[vs st] w'] eqn:Hdr.
  destruct (drain_created _ _ _ _ _ _ _ _ _ _ Hd0 Hdr) as (_ & Hv & Hs & Hf & Hg).
  exists vs, w'. destruct st as [g| |x].
  - exfalso. pose proof (Hg g eq_refl) as Hlen.
    destruct (nth_error vs fuel) as [v|] eqn:Hn.
    + apply Hv in Hn. destruct Hn as [Hlt _].
      replace (reads w + 1 + fuel)%nat with m in Hlt by lia.
      unfold sample_ts in Hlt. apply (proj1 (progress_lt_1 _ _ Hd)) in Hlt.
      apply (Qlt_irrefl d). eapply Qle_lt_trans; eassumption.
    + apply nth_error_None in Hn. lia.
  - destruct (Hs eq_refl). split; [reflexivity|lia].
  - now destruct (Hf x).
Qed.



(** X6: when the duration has already passed between the first two clock
    samples, the generator yields nothing and [animate] returns without a
    single write: the brightness stays where it was, not at the target. *)
Theorem animate_writes_nothing_when_late c target d f w b fuel :
  0 < d ->
  d <= total_seconds (now (S (reads w)) - now (reads w)) ->
  get_brightness c w = (Ok b, w) ->
  animate now (S fuel) c target d f w = Some (Ok tt, with_reads (reads w + 2) w).
Proof.
  intros Hd Hlate Hget.
  destruct (drain_stops (inject_Z b) target d f w (S (reads w)) Hd ltac:(lia) Hlate)
    as (vs & w1 & Hdr & Hlen).
  replace (S (reads w) - reads w)%nat with 1%nat in * by lia.
  destruct vs as [|v vs]; [|cbn in Hlen; lia].
  destruct (drain_created _ _ _ _ _ _ _ _ _ _ (pos_nonzero _ Hd) Hdr) as (Hw & _).
  unfold animate. rewrite Hget.
  rewrite (for_loop_completes c _ _ _ _ _ Hdr (Forall_nil _) (S fuel)) by lia.
  cbn [fold_left]. rewrite Hw. cbn [List.length]. rewrite Nat.add_0_r.
  now destruct w.
Qed.

End AnimateRuns.

(** ** Durations that are not positive, and equal ends *)

Section EdgeDurations.

Variable now : nat -> Z.

Lemma sample_ts_nonpos d t0 n :
  d < 0 -> (t0 <= now n)%Z -> sample_ts now d t0 n <= 0.
Proof.
  intros Hd Hle. unfold sample_ts.
  assert (Hd0 : ~ d == 0) by (intros E; rewrite E in Hd; discriminate).
  rewrite progress_ratio by exact Hd0.
  assert (Ht : 0 <= total_seconds (now n - t0))
    by (unfold total_seconds, Qle; cbn; lia).
  pose proof (Qmult_div_r (total_seconds (now n - t0)) d Hd0) as Hq.
  destruct (Qlt_le_dec 0 (total_seconds (now n - t0) / d)) as [Hpos|Hneg];
    [exfalso; nra | exact Hneg].
Qed.

Lemma neg_nonzero d : d < 0 -> Qeq_bool d 0 = false.
Proof.
  intros Hd. apply Qeq_bool_false. intros E. rewrite E in Hd. discriminate.
Qed.

(** X7: with a negative duration and a clock that never runs backwards
    the generator never stops and never raises: however often [next()] is
    called, it yields one more value. *)
Theorem negative_duration_never_stops start stop d f w fuel :
  d < 0 ->
  (forall n, (now n <= now (S n))%Z) ->
  exists vs g w',
    drain now fuel (Created start stop d f) w = (vs, Running g, w') /\
    List.length vs = fuel.
Proof.
  intros Hd Hclock. destruct fuel as [|fuel].
  { exists [], (Created start stop d f), w. split; reflexivity. }
  destruct (drain now (S fuel) (Created start stop d f) w) as [[vs st] w'] eqn:Hdr.
  destruct (drain_created _ _ _ _ _ _ _ _ _ _ (neg_nonzero _ Hd) Hdr)
    as (_ & _ & Hs & Hf & Hg).
  destruct st as [g| |x].
  - exists vs, g, w'. split; [reflexivity | now apply (Hg g)].
  - exfalso. destruct (Hs eq_refl) as [Hge _].
    assert (Hle : sample_ts now d (now (reads w)) (reads w + 1 + List.length vs) <= 0).
    { apply sample_ts_nonpos; [exact Hd|]. apply clock_mono; [exact Hclock|lia]. }
    apply (Qlt_irrefl 0). eapply Qlt_le_trans; [|exact Hle].
    eapply Qlt_le_trans; [|exact Hge]. reflexivity.
  - now destruct (Hf x).
Qed.

(** The values of such a run with the identity easing and
    [start <= stop] never rise above [start]. *)
Lemma negative_duration_values start stop d w fuel :
  d < 0 ->
  (forall n, (now n <= now (S n))%Z) ->
  start <= stop ->
  exists vs g w',
    drain now fuel (Created start stop d (fun t => t)) w = (vs, Running g, w') /\
    forall v, In v vs -> v <= start.
Proof.
  intros Hd Hclock Hss. destruct fuel as [|fuel].
  { exists [], (Created start stop d (fun t => t)), w.
    split; [reflexivity | intros v []]. }
  destruct (drain now (S fuel) (Created start stop d (fun t => t)) w)
    as [[vs st] w'] eqn:Hdr.
  destruct (drain_created _ _ _ _ _ _ _ _ _ _ (neg_nonzero _ Hd) Hdr)
    as (_ & Hv & Hs & Hf & Hg).
  assert (Hx : forall k, sample_ts now d (now (reads w)) (reads w + 1 + k) <= 0).
  { intros k. apply sample_ts_nonpos; [exact Hd|].
    apply clock_mono; [exact Hclock|lia]. }
  destruct st as [g| |x].
  - exists vs, g, w'. split; [reflexivity|].
    intros v Hin. apply In_nth_error in Hin. destruct Hin as [k Hk].
    apply Hv in Hk. destruct Hk as [_ ->]. specialize (Hx k). nra.
  - exfalso. destruct (Hs eq_refl) as [Hge _]. specialize (Hx (List.length vs)).
    apply (Qlt_irrefl 0). eapply Qlt_le_trans; [|exact Hx].
    eapply Qlt_le_trans; [|exact Hge]. reflexivity.
  - now destruct (Hf x).
Qed.

(** X8: so [animate] with a negative duration, the identity easing and
    [b <= target], [b <= max] for the brightness [b] it starts from never
    returns: no amount of steps ends it. *)
Theorem animate_negative_duration_never_returns c target d w b fuel :
  d < 0 ->
  (forall n, (now n <= now (S n))%Z) ->
  get_brightness c w = (Ok b, w) ->
  inject_Z b <= target -> (b <= _max c)%Z ->
  animate now fuel c target d (fun t => t) w = None.
Proof.
  intros Hd Hclock Hget Hbt Hbm.
  destruct (negative_duration_values (inject_Z b) target d w fuel Hd Hclock Hbt)
    as (vs & g & w' & Hdr & Hall).
  unfold animate. rewrite Hget.
  eapply for_loop_runs_on; [exact Hdr|].
  apply Forall_forall. intros v Hin. apply Hall in Hin.
  eapply Qle_trans; [exact Hin|]. now rewrite <- Zle_Qle.
Qed.

(** X9: [animate] with duration 0 raises [ZeroDivisionError] on its first
    step, after the two clock samples, and has written nothing. *)
Theorem animate_zero_duration_raises c target d f w b fuel :
  d == 0 ->
  get_brightness c w = (Ok b, w) ->
  animate now (S fuel) c target d f w =
  Some (Raise ZeroDivisionError, with_reads (reads w + 2) w).
Proof.
  intros Hd Hget. apply Qeq_eq_bool in Hd.
  pose proof (drain_zero_duration now (inject_Z b) target d f w 0 Hd) as Hdr.
  rewrite drain_S in Hdr. unfold animate. rewrite Hget. cbn [for_loop].
  destruct (next now (Created (inject_Z b) target d f) w) as [[[[v g]|]|e] w1].
  - destruct (drain now 0 g w1) as [[vs st] w2]. discriminate.
  - discriminate.
  - now injection Hdr as -> ->.
Qed.

(** X10: when [stop] equals [start], every value the generator yields
    equals [start], whatever the easing function and the clock; it still
    runs for the duration. *)
Theorem equal_ends_constant_values start stop d f w fuel vs st w' v :
  stop == start ->
  drain now fuel (Created start stop d f) w = (vs, st, w') ->
  In v vs ->
  v == start.
Proof.
  intros Heq Hdr Hin. destruct fuel as [|fuel].
  { cbn in Hdr. injection Hdr as <- <- <-. destruct Hin. }
  destruct (Qeq_bool d 0) eqn:Hd.
  { rewrite (drain_zero_duration now _ _ _ _ _ _ Hd) in Hdr.
    injection Hdr as <- <- <-. destruct Hin. }
  destruct (drain_created _ _ _ _ _ _ _ _ _ _ Hd Hdr) as (_ & Hv & _).
  apply In_nth_error in Hin. destruct Hin as [k Hk].
  apply Hv in Hk. destruct Hk as [_ ->].
  setoid_replace (stop - start) with 0 by (rewrite Heq; ring). ring.
Qed.

End EdgeDurations.

(** ** Setting the clock *)

Section ClockShift.

Variable now : nat -> Z.
Variable c : Z.

Lemma shifted_elapsed a b : (a + c - (b + c))%Z = (a - b)%Z.
Proof. lia. Qed.

Lemma next_shift g w :
  next (fun k => (now k + c)%Z) (shift_gen c g) w =
  match next now g w with
  | (Ok (Some (v, g')), w') => (Ok (Some (v, shift_gen c g')), w')
  | r => r
  end.
Proof.
  destruct g as [s e d f|fr|]; cbn;
    unfold while_loop, bind, scaled, py_div, datetime_now, ret, raise; cbn;
    rewrite ?shifted_elapsed;
    repeat (match goal with
            | |- context [if ?b then _ else _] => destruct b
            end; cbn; rewrite ?shifted_elapsed);
    reflexivity.
Qed.

(** X11: the generator depends on the clock only through the time elapsed
    since its first sample: under a clock set later or earlier by any
    amount it yields the same values, stops or fails at the same step and
    takes the same samples. *)
Theorem clock_shift_invariance fuel : forall g w,
  drain (fun k => (now k + c)%Z) fuel (shift_gen c g) w =
  let '(vs, st, w') := drain now fuel g w in (vs, shift_status c st, w').
Proof.
  induction fuel as [|fuel IH]; intros g w; [reflexivity|].
  rewrite !drain_S, next_shift.
  destruct (next now g w) as [[[[v g']|]|e] w1]; try reflexivity.
  rewrite IH. now destruct (drain now fuel g' w1) as [[vs st] w2].
Qed.

End ClockShift.

(** ** More of the command line *)

(** [animate] prints nothing, so a line printed before it could as well
    be printed after it. *)
Section PrintFrame.

Variable now : nat -> Z.
Variable line : string.

Lemma next_printed g w :
  next now g (snd (print line w)) =
  (fst (next now g w), snd (print line (snd (next now g w)))).
Proof. run_next g; reflexivity. Qed.

Lemma set_brightness_printed c v w :
  set_brightness c v (snd (print line w)) =
  (fst (set_brightness c v w), snd (print line (snd (set_brightness c v w)))).
Proof.
  unfold set_brightness. now destruct (Qltb (inject_Z (_max c)) v).
Qed.

Lemma get_brightness_printed c w :
  get_brightness c (snd (print line w)) =
  (fst (get_brightness c w), snd (print line (snd (get_brightness c w)))).
Proof.
  unfold get_brightness, int_of_text. cbn [brightness_file print snd].
  now destruct (literal (strip (brightness_file w))).
Qed.

Lemma for_loop_printed c fuel : forall g w,
  for_loop now fuel c g (snd (print line w)) =
  option_map (fun rw => (fst rw, snd (print line (snd rw))))
             (for_loop now fuel c g w).
Proof.
  induction fuel as [|fuel IH]; intros g w; [reflexivity|].
  cbn [for_loop]. rewrite next_printed.
  destruct (next now g w) as [[[[v g']|]|e] w1]; cbn [fst snd]; try reflexivity.
  rewrite set_brightness_printed.
  destruct (set_brightness c v w1) as [[[]|e] w2]; cbn [fst snd];
    [apply IH | reflexivity].
Qed.

Lemma animate_printed c fuel target d f w :
  animate now fuel c target d f (snd (print line w)) =
  option_map (fun rw => (fst rw, snd (print line (snd rw))))
             (animate now fuel c target d f w).
Proof.
  unfold animate. rewrite get_brightness_printed.
  destruct (get_brightness c w) as [[b|e] w1]; cbn [fst snd];
    [apply for_loop_printed | reflexivity].
Qed.

End PrintFrame.

Section MainRuns.

Variable now : nat -> Z.
Variable pytweening : string -> option (Q -> Q).
Variable easeOutCubic : Q -> Q.
Variable usage : string.

(** X12: [show] prints the brightness and [max] the maximum, in their
    plain decimal form whatever white space the endpoints hold around
    them; both succeed, ignore the operand, the duration and the easing
    name, take no clock sample and write nothing to the backlight. *)
Theorem main_show_and_max_print fuel o d e w l1 r1 m l2 r2 b :
  all_space l1 = true -> all_space r1 = true ->
  max_brightness_file w = l1 ++ str m ++ r1 ->
  all_space l2 = true -> all_space r2 = true ->
  brightness_file w = l2 ++ str b ++ r2 ->
  main now pytweening easeOutCubic usage fuel (mkArgs show o d e) w
  = Some (Ok tt, mkWorld (reads w) (max_brightness_file w) (brightness_file w)
                   (stdout w ++ [str b]) (stderr w)) /\
  main now pytweening easeOutCubic usage fuel (mkArgs max o d e) w
  = Some (Ok tt, mkWorld (reads w) (max_brightness_file w) (brightness_file w)
                   (stdout w ++ [str m]) (stderr w)).
Proof.
  intros Hl1 Hr1 Hm Hl2 Hr2 Hb.
  unfold main. rewrite (open_max_text _ _ _ _ Hl1 Hr1 Hm).
  assert (Hget : int_of_text (brightness_file w) w = (Ok b, w))
    by (rewrite Hb; now apply int_of_text_surrounded).
  cbn [args_action]. unfold bind, get_brightness. rewrite Hget.
  split; reflexivity.
Qed.


Lemma main_animate_unknown_easing fuel a c w :
  pytweening (args_easing_function a) = None ->
  not_operand (args_operand a) = false ->
  main_animate now pytweening easeOutCubic usage fuel a c w =
  option_map
    (fun rw =>
       (fst rw,
        snd (print ("No easing function " ++ args_easing_function a
                      ++ " found in PyTweening. Defaulting to easeOutCubic.")
                   (snd rw))))
    (main_animate now (fun _ => Some easeOutCubic) easeOutCubic usage fuel a c w).
Proof.
  intros Hname Hop. unfold main_animate. rewrite Hname, Hop.
  rewrite get_brightness_printed.
  destruct (get_brightness c w) as [[b|x] w1]; cbn [fst snd]; [|reflexivity].
  apply animate_printed.
Qed.

(** X14: an easing name that [pytweening] does not have is no error: for
    [set], [inc] and [dec] with their operand the program does what it
    does with [easeOutCubic], with the same result and the same writes,
    and one more line on the standard output, the warning. *)
Theorem main_unknown_easing_defaults fuel a w m :
  open w = (Ok (mkControl m), w) ->
  pytweening (args_easing_function a) = None ->
  not_operand (args_operand a) = false ->
  match args_action a with
  | show | max => True
  | _ =>
      main now pytweening easeOutCubic usage fuel a w =
      option_map
        (fun rw =>
           (fst rw,
            snd (print ("No easing function " ++ args_easing_function a
                          ++ " found in PyTweening. Defaulting to easeOutCubic.")
                       (snd rw))))
        (main now (fun _ => Some easeOutCubic) easeOutCubic usage fuel a w)
  end.
Proof.
  intros Hopen Hname Hop.
  pose proof (main_animate_unknown_easing fuel a (mkControl m) w Hname Hop) as H.
  unfold main. rewrite Hopen.
  destruct (args_action a); try exact I; rewrite H;
    destruct (main_animate now (fun _ => Some easeOutCubic) easeOutCubic usage
                fuel a (mkControl m) w) as [[[[]|x] w1]|]; reflexivity.
Qed.

End MainRuns.

(** ** The further properties on the sample runs *)

(** From 50 to 80 on the sample clock: 50, 65 and 72.5 are written. *)
Lemma animate_completes_witness :
  let c := mkControl 100 in
  let r := drain sample_clock 5 (Created (inject_Z 50) 80 1 (fun t => t))
             sample_world in
  (get_brightness c sample_world = (Ok 50%Z, sample_world) /\
   r = (fst (fst r), Stopped, snd r) /\
   Forall (fun u => u <= inject_Z (_max c)) (fst (fst r)) /\
   (5 <= 10)%nat) /\
  animate sample_clock 10 c 80 1 (fun t => t) sample_world =
  Some (Ok tt, with_brightness "72" (snd r)) /\
  reads (snd r) = 5%nat.
Proof.
  intros c r.
  assert (H1 : get_brightness c sample_world = (Ok 50%Z, sample_world))
    by reflexivity.
  assert (H2 : r = (fst (fst r), Stopped, snd r)) by (vm_compute; reflexivity).
  assert (H3 : Forall (fun u => u <= inject_Z (_max c)) (fst (fst r)))
    by (vm_compute; repeat constructor; discriminate).
  assert (H4 : (5 <= 10)%nat) by lia.
  split; [repeat split; assumption|].
  exact (animate_completes sample_clock c 80 1 (fun t => t) sample_world 50 5
           (fst (fst r)) (snd r) 10 H1 H2 H3 H4).
Defined.


(** Half a second asked for, created at the second sample of the sample
    clock: the next sample is already half a second later. *)
Lemma animate_writes_nothing_when_late_witness :
  let w := with_reads 1 sample_world in
  (0 < 1 # 2 /\
   1 # 2 <= total_seconds (sample_clock (S (reads w)) - sample_clock (reads w)) /\
   get_brightness (mkControl 100) w = (Ok 50%Z, w)) /\
  animate sample_clock 1 (mkControl 100) 80 (1 # 2) (fun t => t) w
  = Some (Ok tt, with_reads (reads w + 2) w).
Proof.
  intros w.
  assert (H1 : 0 < 1 # 2) by reflexivity.
  assert (H2 : 1 # 2 <= total_seconds (sample_clock (S (reads w)) - sample_clock (reads w)))
    by (vm_compute; discriminate).
  assert (H3 : get_brightness (mkControl 100) w = (Ok 50%Z, w)) by reflexivity.
  split; [repeat split; assumption|].
  exact (animate_writes_nothing_when_late sample_clock (mkControl 100) 80 (1 # 2)
           (fun t => t) w 50 0 H1 H2 H3).
Defined.

(** Duration -1 on the sample clock, three steps. *)
Lemma negative_duration_never_stops_witness :
  (-1 # 1 < 0 /\ (forall n, (sample_clock n <= sample_clock (S n))%Z)) /\
  exists vs g w',
    drain sample_clock 3 (Created 0 10 (-1 # 1) (fun t => t)) sample_world
    = (vs, Running g, w') /\
    List.length vs = 3%nat.
Proof.
  assert (H1 : -1 # 1 < 0) by reflexivity.
  split; [split; [exact H1 | exact sample_clock_mono]|].
  exact (negative_duration_never_stops sample_clock 0 10 (-1 # 1) (fun t => t)
           sample_world 3 H1 sample_clock_mono).
Defined.

Lemma animate_negative_duration_never_returns_witness :
  (-1 # 1 < 0 /\ (forall n, (sample_clock n <= sample_clock (S n))%Z) /\
   get_brightness (mkControl 100) sample_world = (Ok 50%Z, sample_world) /\
   inject_Z 50 <= 80 /\ (50 <= _max (mkControl 100))%Z) /\
  animate sample_clock 3 (mkControl 100) 80 (-1 # 1) (fun t => t) sample_world
  = None.
Proof.
  assert (H1 : -1 # 1 < 0) by reflexivity.
  assert (H3 : get_brightness (mkControl 100) sample_world = (Ok 50%Z, sample_world))
    by reflexivity.
  assert (H4 : inject_Z 50 <= 80) by (vm_compute; discriminate).
  assert (H5 : (50 <= _max (mkControl 100))%Z) by (cbn; lia).
  split; [repeat split; try assumption; exact sample_clock_mono|].
  exact (animate_negative_duration_never_returns sample_clock (mkControl 100) 80
           (-1 # 1) sample_world 50 3 H1 sample_clock_mono H3 H4 H5).
Defined.

Lemma animate_zero_duration_raises_witness :
  (0 == 0 /\
   get_brightness (mkControl 100) sample_world = (Ok 50%Z, sample_world)) /\
  animate sample_clock 1 (mkControl 100) 80 0 (fun t => t) sample_world
  = Some (Raise ZeroDivisionError, with_reads (reads sample_world + 2) sample_world).
Proof.
  assert (H1 : 0 == 0) by reflexivity.
  assert (H2 : get_brightness (mkControl 100) sample_world = (Ok 50%Z, sample_world))
    by reflexivity.
  split; [split; assumption|].
  exact (animate_zero_duration_raises sample_clock (mkControl 100) 80 0
           (fun t => t) sample_world 50 0 H1 H2).
Defined.

(** From 50 to 50 on the sample clock: three values, the second is 50. *)
Lemma equal_ends_constant_values_witness :
  let r := drain sample_clock 5 (Created 50 50 1 (fun t => t)) sample_world in
  exists v,
    (50 == 50 /\ r = (fst (fst r), snd (fst r), snd r) /\ In v (fst (fst r))) /\
    nth_error (fst (fst r)) 1 = Some v /\
    v == 50.
Proof.
  intros r.
  destruct (nth_error (fst (fst r)) 1) as [v|] eqn:Hn; [|vm_compute in Hn; discriminate].
  exists v.
  assert (H1 : 50 == 50) by reflexivity.
  assert (H2 : r = (fst (fst r), snd (fst r), snd r)) by (vm_compute; reflexivity).
  assert (H3 : In v (fst (fst r))) by (eapply nth_error_In; exact Hn).
  split; [repeat split; assumption|]. split; [reflexivity|].
  exact (equal_ends_constant_values sample_clock 50 50 1 (fun t => t) sample_world 5
           (fst (fst r)) (snd (fst r)) (snd r) v H1 H2 H3).
Defined.

(** [show] and [max] on the backlight as sysfs shows it. *)
Lemma main_show_and_max_print_witness :
  (all_space "" = true /\ all_space newline = true /\
   max_brightness_file sysfs_world = "" ++ str 100 ++ newline /\
   brightness_file sysfs_world = "" ++ str 50 ++ newline) /\
  main sample_clock (fun _ => None) (fun t => t) "usage" 0
    (mkArgs show None 1 "easeOutCubic") sysfs_world
  = Some (Ok tt, mkWorld 0 ("100" ++ newline) ("50" ++ newline) ["50"] []) /\
  main sample_clock (fun _ => None) (fun t => t) "usage" 0
    (mkArgs max None 1 "easeOutCubic") sysfs_world
  = Some (Ok tt, mkWorld 0 ("100" ++ newline) ("50" ++ newline) ["100"] []).
Proof.
  assert (H1 : all_space "" = true) by reflexivity.
  assert (H2 : all_space newline = true) by reflexivity.
  assert (H3 : max_brightness_file sysfs_world = "" ++ str 100 ++ newline)
    by reflexivity.
  assert (H4 : brightness_file sysfs_world = "" ++ str 50 ++ newline)
    by reflexivity.
  split; [repeat split; assumption|].
  exact (main_show_and_max_print sample_clock (fun _ => None) (fun t => t) "usage"
           0 None 1 "easeOutCubic" sysfs_world "" newline 100 "" newline 50
           H1 H2 H3 H1 H2 H4).
Defined.


(** [set 70 -e bogus] with a [pytweening] that has no such name. *)
Lemma main_unknown_easing_defaults_witness :
  let a := mkArgs set (Some 70%Z) 1 "bogus" in
  (open sample_world = (Ok (mkControl 100), sample_world) /\
   (fun _ : string => @None (Q -> Q)) (args_easing_function a) = None /\
   not_operand (args_operand a) = false) /\
  main sample_clock (fun _ => None) (fun t => t) "usage" 5 a sample_world =
  option_map
    (fun rw =>
       (fst rw,
        snd (print ("No easing function " ++ args_easing_function a
                      ++ " found in PyTweening. Defaulting to easeOutCubic.")
                   (snd rw))))
    (main sample_clock (fun _ => Some (fun t => t)) (fun t => t) "usage" 5 a
       sample_world).
Proof.
  intros a.
  assert (H1 : open sample_world = (Ok (mkControl 100), sample_world))
    by reflexivity.
  assert (H2 : (fun _ : string => @None (Q -> Q)) (args_easing_function a) = None)
    by reflexivity.
  assert (H3 : not_operand (args_operand a) = false) by reflexivity.
  split; [repeat split; assumption|].
  exact (main_unknown_easing_defaults sample_clock (fun _ => None) (fun t => t)
           "usage" 5 a sample_world 100 H1 H2 H3).
Defined.

(** ** Falling animations *)

Section AnimateFalls.

Variable now : nat -> Z.

Lemma linear_values_above_stop start stop d w fuel vs st w' v :
  0 < d ->
  (forall n, (now n <= now (S n))%Z) ->
  stop < start ->
  drain now fuel (Created start stop d (fun t => t)) w = (vs, st, w') ->
  In v vs ->
  stop < v /\ v <= start.
Proof.
  intros Hd Hclock Hlt Hdr Hin.
  destruct fuel as [|fuel].
  { cbn in Hdr. injection Hdr as <- <- <-. destruct Hin. }
  destruct (drain_created _ _ _ _ _ _ _ _ _ _ (pos_nonzero _ Hd) Hdr) as (_ & Hv & _).
  apply In_nth_error in Hin. destruct Hin as [k Hk].
  apply Hv in Hk. destruct Hk as [Hx ->].
  assert (H0 : 0 <= sample_ts now d (now (reads w)) (reads w + 1 + k)).
  { apply sample_ts_nonneg; [exact Hd|]. apply clock_mono; [exact Hclock|lia]. }
  split; nra.
Qed.

(** X15: with the identity easing, a clock that never runs backwards and
    reaches the duration, and [0 <= target < b <= max], [animate] returns
    normally and leaves a brightness from [target] to [b]: a falling
    linear animation stays between its ends (truncation toward zero lets
    it reach the target, which a rising one never does). *)
Theorem animate_linear_falls_within_ends c (target : Z) d w b m :
  0 < d ->
  (forall n, (now n <= now (S n))%Z) ->
  (reads w < m)%nat ->
  d <= total_seconds (now m - now (reads w)) ->
  get_brightness c w = (Ok b, w) ->
  (0 <= target)%Z -> (target < b)%Z -> (b <= _max c)%Z ->
  exists w' z,
    (forall fuel, (m - reads w <= fuel)%nat ->
       animate now fuel c (inject_Z target) d (fun t => t) w = Some (Ok tt, w')) /\
    get_brightness c w' = (Ok z, w') /\
    (target <= z <= b)%Z.
Proof.
  intros Hd Hclock Hm Hlate Hget Ht Htb Hbm.
  destruct (drain_stops now (inject_Z b) (inject_Z target) d (fun t => t) w m
              Hd Hm Hlate) as (vs & w1 & Hdr & _).
  assert (Hlt : inject_Z target < inject_Z b) by now rewrite <- Zlt_Qlt.
  assert (Hvals : forall v, In v vs -> inject_Z target < v /\ v <= inject_Z b).
  { intros v Hin. eapply linear_values_above_stop; eassumption. }
  assert (Hall : Forall (fun u => u <= inject_Z (_max c)) vs).
  { apply Forall_forall. intros v Hin. destruct (Hvals v Hin) as [_ Hv].
    eapply Qle_trans; [exact Hv|]. now rewrite <- Zle_Qle. }
  exists (with_brightness (last_written vs (brightness_file w)) w1).
  assert (Hrun : forall fuel, (m - reads w <= fuel)%nat ->
            animate now fuel c (inject_Z target) d (fun t => t) w
            = Some (Ok tt, with_brightness (last_written vs (brightness_file w)) w1)).
  { intros fuel Hle. unfold animate. rewrite Hget.
    rewrite (for_loop_completes now c _ _ _ _ _ Hdr Hall fuel Hle).
    now rewrite fold_written. }
  unfold last_written in *. destruct (List.rev vs) as [|u us] eqn:Hrev.
  - exists b. split; [exact Hrun|]. split; [|lia].
    unfold get_brightness in *. cbn [brightness_file with_brightness].
    eapply int_of_text_anywhere. exact Hget.
  - exists (py_int u). split; [exact Hrun|]. split.
    + unfold get_brightness, int_of_text. cbn [brightness_file with_brightness].
      now rewrite literal_str.
    + assert (Hin : In u vs) by (apply in_rev; rewrite Hrev; now left).
      destruct (Hvals u Hin) as [Hlo Hhi].
      assert (H0 : 0 <= u).
      { apply Qlt_le_weak. eapply Qle_lt_trans; [|exact Hlo].
        change 0 with (inject_Z 0). now rewrite <- Zle_Qle. }
      destruct (proj1 (py_int_toward_zero u) H0) as (_ & H1 & H2).
      split.
      * assert (H3 : inject_Z target < inject_Z (py_int u + 1))
          by (eapply Qlt_trans; eassumption).
        rewrite <- Zlt_Qlt in H3. lia.
      * assert (H3 : inject_Z (py_int u) <= inject_Z b)
          by (eapply Qle_trans; eassumption).
        now rewrite <- Zle_Qle in H3.
Qed.

End AnimateFalls.

(** From 50 down to 20 with maximum 100 on the sample clock. *)
Lemma animate_linear_falls_within_ends_witness :
  (0 < 1 /\ (forall n, (sample_clock n <= sample_clock (S n))%Z) /\
   (reads sample_world < 4)%nat /\
   1 <= total_seconds (sample_clock 4 - sample_clock (reads sample_world)) /\
   get_brightness (mkControl 100) sample_world = (Ok 50%Z, sample_world) /\
   (0 <= 20)%Z /\ (20 < 50)%Z /\ (50 <= _max (mkControl 100))%Z) /\
  exists w' z,
    (forall fuel, (4 - reads sample_world <= fuel)%nat ->
       animate sample_clock fuel (mkControl 100) (inject_Z 20) 1 (fun t => t)
         sample_world = Some (Ok tt, w')) /\
    get_brightness (mkControl 100) w' = (Ok z, w') /\
    (20 <= z <= 50)%Z.
Proof.
  assert (H1 : 0 < 1) by reflexivity.
  assert (H3 : (reads sample_world < 4)%nat) by (cbn; lia).
  assert (H4 : 1 <= total_seconds (sample_clock 4 - sample_clock (reads sample_world)))
    by (vm_compute; discriminate).
  assert (H5 : get_brightness (mkControl 100) sample_world = (Ok 50%Z, sample_world))
    by reflexivity.
  assert (H6 : (0 <= 20)%Z) by lia.
  assert (H7 : (20 < 50)%Z) by lia.
  assert (H8 : (50 <= _max (mkControl 100))%Z) by (cbn; lia).
  split; [repeat split; try assumption; exact sample_clock_mono|].
  exact (animate_linear_falls_within_ends sample_clock (mkControl 100) 20 1
           sample_world 50 4 H1 sample_clock_mono H3 H4 H5 H6 H7 H8).
Defined.

